(** * Verification of the barcode generator (barcode_generator.py)

    A shallow embedding of [BarcodeGenerator]: the pure string helpers are
    Rocq functions over [string]; the methods that talk to the file system,
    the clock, the random source and the barcode library are computations in
    a small state-and-exception monad over a world that also records every
    call made to a collaborator, the way the unit tests observe them through
    mocks. *)

From Stdlib Require Import ZArith List Ascii String Decimal DecimalString DecimalZ Lia.
From stdpp Require Import base gmap sets list strings.

Local Open Scope Z_scope.

(** ** Strings *)

(** The double quote character, code 34. *)
Definition dquote : ascii := "034"%char.

(** The character class of the pattern given to [re.sub] in
    [_sanitize_filename], in the order it is written: backslash (escaped in
    the raw string), slash, star, question mark, colon, double quote, less
    than, greater than, vertical bar. *)
Definition invalid_chars : list ascii :=
  ["\"%char; "/"%char; "*"%char; "?"%char; ":"%char; dquote;
   "<"%char; ">"%char; "|"%char].

Definition in_class (cls : list ascii) (c : ascii) : bool :=
  existsb (Ascii.eqb c) cls.

(** [re.sub(pattern, repl, s)] for a pattern that is one character class:
    the matches are the single characters of the class, left to right, and
    each is replaced by [repl]. *)
Fixpoint re_sub_class (cls : list ascii) (repl : string) (s : string) : string :=
  match s with
  | EmptyString => EmptyString
  | String c rest =>
      if in_class cls c then repl +:+ re_sub_class cls repl rest
      else String c (re_sub_class cls repl rest)
  end.

(** [BarcodeGenerator._sanitize_filename]. *)
Definition _sanitize_filename (filename : string) : string :=
  re_sub_class invalid_chars "_" filename.

(** [string.digits]. *)
Definition string_digits : string := "0123456789".

(** [str.join] with the empty separator over a list of characters. *)
Definition join_chars (cs : list ascii) : string := string_of_list_ascii cs.

(** [str(n)] for a Python [int], which is what an f-string field without a
    format specification inserts: decimal digits, a leading minus sign for
    negative numbers, [0] for zero. The interpreter's configurable limit on
    the number of digits of such a conversion is not modelled. *)
Definition str_int (n : Z) : string := NilZero.string_of_int (Z.to_int n).

Definition is_digit (c : ascii) : bool := in_class (list_ascii_of_string string_digits) c.

Definition all_digits (s : string) : bool := forallb is_digit (list_ascii_of_string s).

(** The shape of a serial number: [prefix] followed by [n] decimal digits. *)
Definition serial_of (prefix : string) (n : nat) (s : string) : Prop :=
  exists ds : string,
    s = prefix +:+ ds /\ String.length ds = n /\ all_digits ds = true.

(** All the strings of [n] decimal digits. *)
Fixpoint digit_strings (n : nat) : list string :=
  match n with
  | O => [EmptyString]
  | S n' =>
      flat_map (fun c => map (String c) (digit_strings n'))
               (list_ascii_of_string string_digits)
  end.

(** ** Dates *)

(** The fields of a [datetime] that the generator formats. *)
Record datetime : Type := mkDatetime {
  year : N; month : N; day : N;
  hour : N; minute : N; second : N
}.


Definition str_N (n : N) : string := NilZero.string_of_uint (N.to_uint n).

Fixpoint zeros (n : nat) : string :=
  match n with
  | O => EmptyString
  | S n' => String "0" (zeros n')
  end.

(** A decimal number padded with zeros on the left up to [width]. *)
Definition zero_padded (width : nat) (n : N) : string :=
  let s := str_N n in zeros (width - String.length s) +:+ s.

(** The conversion directives of [strftime] that the generator uses, and
    the literal percent sign; any other directive is left as it is. *)
Definition directive (d : ascii) (dt : datetime) : string :=
  if Ascii.eqb d "Y" then zero_padded 4 (year dt)
  else if Ascii.eqb d "m" then zero_padded 2 (month dt)
  else if Ascii.eqb d "d" then zero_padded 2 (day dt)
  else if Ascii.eqb d "H" then zero_padded 2 (hour dt)
  else if Ascii.eqb d "M" then zero_padded 2 (minute dt)
  else if Ascii.eqb d "S" then zero_padded 2 (second dt)
  else if Ascii.eqb d "%" then "%"
  else String "%" (String d EmptyString).

(** [datetime.strftime(fmt)]. *)
Fixpoint strftime (fmt : string) (dt : datetime) : string :=
  match fmt with
  | EmptyString => EmptyString
  | String c rest =>
      if Ascii.eqb c "%" then
        match rest with
        | EmptyString => String c EmptyString
        | String d rest' => directive d dt +:+ strftime rest' dt
        end
      else String c (strftime rest dt)
  end.

(** ** The world outside the generator *)

(** The outcome of a Python call: a value, or a raised exception. *)
Inductive Result (E A : Type) : Type :=
| Ok (a : A)
| Raise (e : E).
Arguments Ok {E A} a.
Arguments Raise {E A} e.

(** [ImageWriter(format=...)]: the writer handed to [barcode.get], a
    configuration value. *)
Record ImageWriter : Type := mkImageWriter { format : string }.

(** The collaborators of the generator. [Ext] is the state of everything
    outside it (file system, clock, random generator, console), [Exn] the
    exceptions, [Code] the symbol objects that [barcode.get] returns.
    Console output and the clock do not fail; directory creation, symbol
    construction and saving may raise. [host_random_below n] is
    [floor(random() * n)], the index that [random.choices] draws for a
    population of [n] elements; since [random()] lies in the half-open
    interval from 0 to 1 the index is below [n]. *)
Class Platform : Type := {
  Ext : Type;
  Exn : Type;
  Code : Type;
  IndexError : Exn;
  host_path_exists : string -> Ext -> bool * Ext;
  host_makedirs : string -> Ext -> Result Exn unit * Ext;
  host_print : string -> Ext -> Ext;
  host_now : Ext -> datetime * Ext;
  host_random_below : nat -> Ext -> nat * Ext;
  host_random_below_lt :
    forall (n : nat) (e : Ext), (0 < n)%nat -> (fst (host_random_below n e) < n)%nat;
  host_barcode_get : string -> string -> ImageWriter -> Ext -> Result Exn Code * Ext;
  host_save : Code -> string -> Ext -> Result Exn string * Ext
}.

Section Generator.
Context `{Platform}.

(** A call to a collaborator, with its arguments. *)
Inductive Call : Type :=
| os_path_exists_call (path : string)
| os_makedirs_call (path : string)
| print_call (text : string)
| datetime_now_call
| random_choices_call (population : string) (k : Z)
| barcode_get_call (name code : string) (writer : ImageWriter)
| save_call (symbol : Code) (filename : string).

(** The world: the state of the collaborators and the calls made to them so
    far, oldest first. *)
Record World : Type := mkWorld { ext : Ext; calls : list Call }.

(** Computations: they read and change the world and return or raise. *)
Definition M (A : Type) : Type := World -> Result Exn A * World.

Definition ret {A : Type} (a : A) : M A := fun w => (Ok a, w).

Definition bind {A B : Type} (m : M A) (k : A -> M B) : M B :=
  fun w =>
    match m w with
    | (Ok a, w') => k a w'
    | (Raise e, w') => (Raise e, w')
    end.

(** One call to a collaborator: it is recorded, then answered. *)
Definition extern {A : Type} (c : Call) (op : Ext -> Result Exn A * Ext) : M A :=
  fun w =>
    let (r, e) := op (ext w) in
    (r, {| ext := e; calls := calls w ++ [c] |}).

Definition os_path_exists (path : string) : M bool :=
  extern (os_path_exists_call path)
         (fun e => let (b, e') := host_path_exists path e in (Ok b, e')).

Definition os_makedirs (path : string) : M unit :=
  extern (os_makedirs_call path) (host_makedirs path).

Definition print (text : string) : M unit :=
  extern (print_call text) (fun e => (Ok tt, host_print text e)).

Definition datetime_now : M datetime :=
  extern datetime_now_call (fun e => let (dt, e') := host_now e in (Ok dt, e')).

(** The draws of [random.choices(population, k=k)]: [k] times
    [population[floor(random() * n)]]. *)
Fixpoint choices_draw (population : string) (k : nat) (e : Ext)
  : Result Exn (list ascii) * Ext :=
  match k with
  | O => (Ok [], e)
  | S k' =>
      let (i, e1) := host_random_below (String.length population) e in
      match String.get i population with
      | None => (Raise IndexError, e1)
      | Some c =>
          match choices_draw population k' e1 with
          | (Ok cs, e2) => (Ok (c :: cs), e2)
          | (Raise x, e2) => (Raise x, e2)
          end
      end
  end.

(** [random.choices(population, k=k)]; a negative [k] draws nothing. *)
Definition random_choices (population : string) (k : Z) : M (list ascii) :=
  extern (random_choices_call population k) (choices_draw population (Z.to_nat k)).

Definition barcode_get (name code : string) (writer : ImageWriter) : M Code :=
  extern (barcode_get_call name code writer) (host_barcode_get name code writer).

Definition save (symbol : Code) (filename : string) : M string :=
  extern (save_call symbol filename) (host_save symbol filename).

End Generator.

Declare Scope py_scope.
Delimit Scope py_scope with py.
Notation "x <- m ;; k" := (bind m (fun x => k))
  (at level 100, m at next level, right associativity) : py_scope.
Notation "m ;;; k" := (bind m (fun _ => k))
  (at level 100, right associativity) : py_scope.

(** ** The generator *)

(** Default values of the optional parameters. *)
Module Defaults.
Definition output_dir : string := "barcodes".
Definition prefix : string := "SN".
Definition length : Z := 8.
Definition default_cycles : Z := 1000.
End Defaults.

(** An instance of [BarcodeGenerator]: its only attribute. *)
Record BarcodeGenerator : Type := mkBarcodeGenerator { output_dir : string }.

(** The text that [generate_barcode] encodes, its local [barcode_data]. *)
Definition barcode_data (serial_number : string) (service_cycles : Z)
    (part_number : string) : string :=
  "SN:" +:+ serial_number +:+ "|SC:" +:+ str_int service_cycles
        +:+ "|PN:" +:+ part_number.

(** The file name stem that [generate_barcode] builds, its local
    [filename], from the formatted time. *)
Definition barcode_filename (self : BarcodeGenerator) (serial_number : string)
    (timestamp : string) : string :=
  let safe_serial := _sanitize_filename serial_number in
  output_dir self +:+ "/barcode_" +:+ safe_serial +:+ "_" +:+ timestamp.

Section Methods.
Context `{Platform}.
Local Open Scope py_scope.

(** [BarcodeGenerator.__init__]. *)
Definition __init__ (output_dir : string) : M BarcodeGenerator :=
  let self := {| output_dir := output_dir |} in
  present <- os_path_exists output_dir ;;
  if negb present then (os_makedirs output_dir ;;; ret self) else ret self.

(** [BarcodeGenerator.generate_random_serial]; it does not read [self]. *)
Definition generate_random_serial (prefix : string) (length : Z) : M string :=
  drawn <- random_choices string_digits length ;;
  let digits := join_chars drawn in
  ret (prefix +:+ digits).

(** The loop of [generate_batch_serials], with the set built so far. The
    loop of the source has no bound: [fuel] bounds the number of tests of
    its condition, and [None] is a loop that has not yet left. *)
Fixpoint batch_loop (fuel : nat) (count : Z) (prefix : string) (length : Z)
    (serials : gset string) (w : World)
  : option (Result Exn (gset string) * World) :=
  match fuel with
  | O => None
  | S fuel' =>
      if Z.of_nat (size serials) <? count then
        match generate_random_serial prefix length w with
        | (Ok serial, w') =>
            batch_loop fuel' count prefix length ({[ serial ]} ∪ serials) w'
        | (Raise e, w') => Some (Raise e, w')
        end
      else Some (Ok serials, w)
  end.

(** [BarcodeGenerator.generate_batch_serials]; the order of the list made
    from the set is the one of [elements]. *)
Definition generate_batch_serials (fuel : nat) (count : Z) (prefix : string)
    (length : Z) (w : World) : option (Result Exn (list string) * World) :=
  match batch_loop fuel count prefix length ∅ w with
  | None => None
  | Some (Ok serials, w') => Some (Ok (elements serials), w')
  | Some (Raise e, w') => Some (Raise e, w')
  end.

(** [BarcodeGenerator.generate_barcode]. *)
Definition generate_barcode (self : BarcodeGenerator) (serial_number : string)
    (service_cycles : Z) (part_number : string) : M string :=
  let barcode_data := barcode_data serial_number service_cycles part_number in
  print ("barcode_data: " +:+ barcode_data) ;;;
  now <- datetime_now ;;
  let timestamp := strftime "%Y%m%d%H%M%S" now in
  let filename := barcode_filename self serial_number timestamp in
  code128 <- barcode_get "code128" barcode_data {| format := "JPEG" |} ;;
  full_path <- save code128 filename ;;
  ret full_path.

(** [BarcodeGenerator.generate_barcode_with_default_cycles]. *)
Definition generate_barcode_with_default_cycles (self : BarcodeGenerator)
    (serial_number part_number : string) (default_cycles : Z) : M string :=
  generate_barcode self serial_number default_cycles part_number.

(** [BarcodeGenerator.generate_barcode_with_random_serial]. *)
Definition generate_barcode_with_random_serial (self : BarcodeGenerator)
    (part_number : string) (service_cycles : Z) (prefix : string) (length : Z)
  : M (string * string) :=
  serial_number <- generate_random_serial prefix length ;;
  barcode_path <- generate_barcode self serial_number service_cycles part_number ;;
  ret (barcode_path, serial_number).

(** The serials that the next [n] calls of [generate_random_serial] return. *)
Fixpoint draws (n : nat) (prefix : string) (length : Z) (w : World) : list string :=
  match n with
  | O => []
  | S n' =>
      match generate_random_serial prefix length w with
      | (Ok serial, w') => serial :: draws n' prefix length w'
      | (Raise _, _) => []
      end
  end.

(** The calls recorded between an earlier world and a later one. *)
Definition calls_since (w w' : World) : list Call :=
  drop (List.length (calls w)) (calls w').

Definition rendering_calls (cs : list Call) : list (string * string * ImageWriter) :=
  flat_map (fun c => match c with
                     | barcode_get_call name code writer => [(name, code, writer)]
                     | _ => []
                     end) cs.

Definition saved_filenames (cs : list Call) : list string :=
  flat_map (fun c => match c with
                     | save_call _ filename => [filename]
                     | _ => []
                     end) cs.

Definition makedirs_calls (cs : list Call) : list string :=
  flat_map (fun c => match c with
                     | os_makedirs_call path => [path]
                     | _ => []
                     end) cs.

End Methods.

(** ** The script *)

(** [range(start, stop)]. *)
Definition range (start stop : Z) : list Z :=
  map (fun i : nat => start + Z.of_nat i) (seq 0 (Z.to_nat (stop - start))).

Section Script.
Context `{Platform}.
Local Open Scope py_scope.

(** A [for] loop over a list: the body runs for each item in turn, and an
    exception ends the loop. *)
Fixpoint for_each {A : Type} (items : list A) (body : A -> M unit) : M unit :=
  match items with
  | [] => ret tt
  | item :: rest => body item ;;; for_each rest body
  end.

(** The body of the two loops of the script: a barcode with a random
    serial number and the default prefix and length, then the report. *)
Definition report_barcode (generator : BarcodeGenerator) (part_number : string)
    (service_cycles : Z) : M unit :=
  result <- generate_barcode_with_random_serial generator part_number
              service_cycles Defaults.prefix Defaults.length ;;
  let '(barcode_path, serial) := result in
  print ("Barcode with random serial " +:+ serial +:+ " generated at: "
         +:+ barcode_path).

(** The script run under [__main__]. *)
Definition main : M unit :=
  generator <- __init__ Defaults.output_dir ;;
  for_each (range 1 10) (fun _ => report_barcode generator "PN-DEF-456" 3000) ;;;
  for_each (range 1 10) (fun _ => report_barcode generator "PN-ABC-123" 700).

(** The rendering request for a serial number. *)
Definition request (service_cycles : Z) (part_number serial : string)
  : string * string * ImageWriter :=
  ("code128", barcode_data serial service_cycles part_number,
   {| format := "JPEG" |}).

End Script.

(** ** Reading a payload back *)

(** The reading that the specification describes for a payload (splitting
    on the vertical bar, then on the colon), written after the
    specification and not after the source, which has no reader: the text is
    cut at its first two bars, each part at its first colon, the keys are
    checked and the middle value is read as a decimal integer. *)
Fixpoint split_once (sep : ascii) (s : string) : option (string * string) :=
  match s with
  | EmptyString => None
  | String c rest =>
      if Ascii.eqb c sep then Some (EmptyString, rest)
      else match split_once sep rest with
           | Some (before, after) => Some (String c before, after)
           | None => None
           end
  end.

Definition field (key part : string) : option string :=
  match split_once ":" part with
  | Some (k, v) => if String.eqb k key then Some v else None
  | None => None
  end.

Definition parse_int (s : string) : option Z :=
  option_map Z.of_int (NilZero.int_of_string s).

Definition spec_decode_payload (payload : string) : option (string * Z * string) :=
  match split_once "|" payload with
  | Some (p1, rest) =>
      match split_once "|" rest with
      | Some (p2, p3) =>
          match field "SN" p1, field "SC" p2, field "PN" p3 with
          | Some sn, Some sc, Some pn =>
              match parse_int sc with
              | Some n => Some (sn, n, pn)
              | None => None
              end
          | _, _, _ => None
          end
      | None => None
      end
  | None => None
  end.

Definition contains (c : ascii) (s : string) : bool :=
  in_class (list_ascii_of_string s) c.

(** ** A host for running the generator *)

(** A small deterministic host, in the manner of the mocks of the test
    suite: a list of existing directories, a fixed clock, a random source
    that counts (or, when [stuck], always draws index 0), and switches that
    make directory creation, symbol construction or saving raise. *)
Module TestHost.

Record Host : Type := mkHost {
  existing : list string;
  clock : datetime;
  counter : nat;
  stuck : bool;
  read_only : bool;
  get_fails : bool;
  save_fails : bool;
  stdout : list string
}.

Definition with_existing (h : Host) (l : list string) : Host :=
  mkHost l (clock h) (counter h) (stuck h) (read_only h) (get_fails h)
         (save_fails h) (stdout h).

Definition with_counter (h : Host) (n : nat) : Host :=
  mkHost (existing h) (clock h) n (stuck h) (read_only h) (get_fails h)
         (save_fails h) (stdout h).

Definition with_stdout (h : Host) (l : list string) : Host :=
  mkHost (existing h) (clock h) (counter h) (stuck h) (read_only h)
         (get_fails h) (save_fails h) l.

Definition random_below (n : nat) (h : Host) : nat * Host :=
  if stuck h then (O, h)
  else (Nat.modulo (counter h) n, with_counter h (S (counter h))).

Definition platform : Platform := {|
  Ext := Host;
  Exn := string;
  Code := string;
  IndexError := "IndexError";
  host_path_exists := fun p h => (existsb (String.eqb p) (existing h), h);
  host_makedirs := fun p h =>
    if read_only h then (Raise "PermissionError", h)
    else (Ok tt, with_existing h (p :: existing h));
  host_print := fun t h => with_stdout h (stdout h ++ [t]);
  host_now := fun h => (clock h, h);
  host_random_below := random_below;
  host_random_below_lt := ltac:(
    intros n h Hn; unfold random_below; destruct (stuck h); simpl;
    [ exact Hn | apply Nat.mod_upper_bound; lia ]);
  host_barcode_get := fun name code writer h =>
    if get_fails h then (Raise "IllegalCharacterError", h) else (Ok code, h);
  host_save := fun symbol filename h =>
    if save_fails h then (Raise "OSError", h)
    else (Ok (filename +:+ ".jpeg"), h)
|}.

Definition noon : datetime := mkDatetime 2023 10 15 12 30 45.

Definition host0 : Host := mkHost [] noon O false false false false [].

Definition stuck_host : Host := mkHost [] noon O true false false false [].

Definition world_of (h : Host) : @World platform := @mkWorld platform h [].

End TestHost.

(** * Properties *)

(** ** File name sanitization *)

Lemma in_class_In (cls : list ascii) (c : ascii) :
  in_class cls c = true <-> In c cls.
Proof.
  unfold in_class. rewrite existsb_exists. split.
  - intros [x [Hx Heq]]. apply Ascii.eqb_eq in Heq. now subst.
  - intros Hc. exists c. split; [assumption | apply Ascii.eqb_refl].
Qed.

Lemma in_class_not_In (cls : list ascii) (c : ascii) :
  in_class cls c = false <-> ~ In c cls.
Proof.
  rewrite <- in_class_In. destruct (in_class cls c); split; congruence.
Qed.

Lemma sanitize_cons (c : ascii) (s : string) :
  _sanitize_filename (String c s)
  = String (if in_class invalid_chars c then "_"%char else c) (_sanitize_filename s).
Proof.
  unfold _sanitize_filename. cbn [re_sub_class].
  destruct (in_class invalid_chars c); reflexivity.
Qed.

Example sanitize_invalid :
  _sanitize_filename ("test\file/with*invalid?chars:" +:+ String dquote "<>|")
  = "test_file_with_invalid_chars_____".
Proof. reflexivity. Qed.

Example sanitize_valid :
  _sanitize_filename "valid-filename_123" = "valid-filename_123".
Proof. reflexivity. Qed.

(** C2. At every position of its input [_sanitize_filename] puts an
    underscore where the input has one of the nine characters backslash,
    slash, star, question mark, colon, double quote, less than, greater than
    and vertical bar, and the character of the input itself where it has any
    other one; positions outside the input stay outside the result. The
    function takes and returns a string only: it neither reads nor changes
    the world. *)
Theorem sanitize_filename_replaces (s : string) (i : nat) :
  match String.get i s with
  | Some c =>
      (In c ["\"%char; "/"%char; "*"%char; "?"%char; ":"%char; ascii_of_nat 34;
             "<"%char; ">"%char; "|"%char]
       -> String.get i (_sanitize_filename s) = Some "_"%char)
      /\ (~ In c ["\"%char; "/"%char; "*"%char; "?"%char; ":"%char; ascii_of_nat 34;
                  "<"%char; ">"%char; "|"%char]
          -> String.get i (_sanitize_filename s) = Some c)
  | None => String.get i (_sanitize_filename s) = None
  end.
Proof.
  revert i. induction s as [| c s IH]; intros i.
  - reflexivity.
  - rewrite sanitize_cons. destruct i as [| i].
    + cbn [String.get]. split; intros Hc.
      * apply (in_class_In invalid_chars) in Hc. now rewrite Hc.
      * apply (in_class_not_In invalid_chars) in Hc. now rewrite Hc.
    + cbn [String.get]. apply IH.
Qed.

Lemma sanitize_length (s : string) :
  String.length (_sanitize_filename s) = String.length s.
Proof.
  induction s as [| c s IH]; [reflexivity |].
  rewrite sanitize_cons. cbn [String.length]. now rewrite IH.
Qed.

Lemma sanitize_idempotent (s : string) :
  _sanitize_filename (_sanitize_filename s) = _sanitize_filename s.
Proof.
  induction s as [| c s IH]; [reflexivity |].
  rewrite !sanitize_cons, IH. f_equal.
  destruct (in_class invalid_chars c) eqn:Hc; [reflexivity | now rewrite Hc].
Qed.

(** C10. [_sanitize_filename] is idempotent, the underscore not being one
    of the replaced characters, and its result is as long as its input. *)
Theorem sanitize_filename_idempotent_length (s : string) :
  _sanitize_filename (_sanitize_filename s) = _sanitize_filename s
  /\ in_class invalid_chars "_" = false
  /\ String.length (_sanitize_filename s) = String.length s.
Proof.
  split; [apply sanitize_idempotent |].
  split; [reflexivity | apply sanitize_length].
Qed.

(** ** The payload *)

Lemma contains_cons (c x : ascii) (s : string) :
  contains c (String x s) = Ascii.eqb c x || contains c s.
Proof. reflexivity. Qed.

Lemma contains_app (c : ascii) (a b : string) :
  contains c (a +:+ b) = contains c a || contains c b.
Proof.
  induction a as [| x a IH]; [reflexivity |].
  change (String x a +:+ b) with (String x (a +:+ b)).
  rewrite !contains_cons, IH. apply orb_assoc.
Qed.

Lemma split_once_app (sep : ascii) (a b : string) :
  contains sep a = false ->
  split_once sep (a +:+ String sep b) = Some (a, b).
Proof.
  induction a as [| x a IH]; intros Ha.
  - change (split_once sep (String sep b) = Some (EmptyString, b)).
    cbn [split_once]. now rewrite Ascii.eqb_refl.
  - rewrite contains_cons in Ha. apply orb_false_iff in Ha as [Hx Ha].
    change (String x a +:+ String sep b) with (String x (a +:+ String sep b)).
    cbn [split_once].
    rewrite Ascii.eqb_sym, Hx, (IH Ha). reflexivity.
Qed.

Lemma string_of_uint_digits (d : uint) :
  all_digits (NilEmpty.string_of_uint d) = true.
Proof.
  induction d; cbn; try reflexivity; assumption.
Qed.

Lemma contains_all_digits (c : ascii) (s : string) :
  is_digit c = false -> all_digits s = true -> contains c s = false.
Proof.
  intros Hc. induction s as [| x s IH]; [reflexivity |].
  unfold all_digits. cbn [list_ascii_of_string forallb].
  intros [Hx Hs]%andb_true_iff. rewrite contains_cons, (IH Hs), orb_false_r.
  destruct (Ascii.eqb_spec c x) as [-> |]; [congruence | reflexivity].
Qed.

Lemma contains_str_int (c : ascii) (n : Z) :
  is_digit c = false -> c <> "-"%char -> contains c (str_int n) = false.
Proof.
  intros Hc Hm. unfold str_int.
  assert (Hu : forall d, contains c (NilZero.string_of_uint d) = false).
  { intros d. apply contains_all_digits; [assumption |].
    destruct d; try apply string_of_uint_digits. reflexivity. }
  destruct (Z.to_int n) as [d | d]; cbn [NilZero.string_of_int].
  - apply Hu.
  - rewrite contains_cons, Hu, orb_false_r. now apply Ascii.eqb_neq.
Qed.

Lemma parse_int_str_int (n : Z) : parse_int (str_int n) = Some n.
Proof.
  unfold parse_int, str_int. rewrite NilZero.isi.
  - cbn [option_map]. now rewrite DecimalZ.of_to.
  - destruct n; cbn; try discriminate.
    intros [= Hp]. now apply (DecimalPos.Unsigned.to_uint_nonnil p).
  - destruct n; cbn; try discriminate.
    intros [= Hp]. now apply (DecimalPos.Unsigned.to_uint_nonnil p).
Qed.

Example barcode_data_example :
  barcode_data "SN12345" 5000 "PN-ABC-789" = "SN:SN12345|SC:5000|PN:PN-ABC-789".
Proof. reflexivity. Qed.

Example barcode_data_negative :
  barcode_data "" (-7) "" = "SN:|SC:-7|PN:".
Proof. reflexivity. Qed.

(** C5, as amended. When the serial number contains no vertical bar, the
    three fields are read back from the payload by cutting it at its first
    two bars and each part at its first colon, whatever the part number
    (empty strings included) and whatever the integer. *)
Theorem payload_round_trip (sn : string) (sc : Z) (pn : string) :
  contains "|" sn = false ->
  spec_decode_payload (barcode_data sn sc pn) = Some (sn, sc, pn).
Proof.
  intros Hsn. unfold spec_decode_payload, barcode_data.
  change ("SN:" +:+ sn +:+ "|SC:" +:+ str_int sc +:+ "|PN:" +:+ pn)
    with (("SN:" +:+ sn) +:+ String "|" (("SC:" +:+ str_int sc)
                                        +:+ String "|" ("PN:" +:+ pn))).
  rewrite split_once_app by (rewrite contains_app, Hsn; reflexivity).
  rewrite split_once_app
    by (rewrite contains_app, contains_str_int; [reflexivity | reflexivity | discriminate]).
  change (field "SN" ("SN:" +:+ sn)) with (Some sn).
  change (field "SC" ("SC:" +:+ str_int sc)) with (Some (str_int sc)).
  change (field "PN" ("PN:" +:+ pn)) with (Some pn).
  cbv iota beta. now rewrite parse_int_str_int.
Qed.

Lemma payload_round_trip_witness :
  contains "|" "" = false
  /\ spec_decode_payload (barcode_data "" (-3) "x|y:z") = Some ("", -3, "x|y:z").
Proof.
  split; [reflexivity | apply (payload_round_trip "" (-3) "x|y:z"); reflexivity].
Defined.

(** C5, as stated, fails: two different requests have the same payload, so
    no reader of any kind gives back the fields of every request. *)
Lemma payload_not_lossless :
  barcode_data "a|SC:1|PN:b" 2 "c" = barcode_data "a" 1 "b|SC:2|PN:c"
  /\ ("a|SC:1|PN:b", 2, "c") <> ("a", 1, "b|SC:2|PN:c")
  /\ ~ (exists read : string -> option (string * Z * string),
         forall sn sc pn, read (barcode_data sn sc pn) = Some (sn, sc, pn)).
Proof.
  split; [reflexivity |]. split; [discriminate |].
  intros [read Hread].
  pose proof (Hread "a|SC:1|PN:b" 2 "c") as H1.
  pose proof (Hread "a" 1 "b|SC:2|PN:c") as H2.
  change (barcode_data "a|SC:1|PN:b" 2 "c")
    with (barcode_data "a" 1 "b|SC:2|PN:c") in H1.
  rewrite H1 in H2. discriminate H2.
Qed.

(** ** The time stamp *)








(** ** Generating a barcode *)

Section Barcode.
Context `{Platform}.

Lemma calls_since_app (w : World) (e : Ext) (new : list Call) :
  calls_since w {| ext := e; calls := calls w ++ new |} = new.
Proof. unfold calls_since. cbn [calls]. apply drop_app_length. Qed.

Lemma bind_extern {A B : Type} (c : Call) (op : Ext -> Result Exn A * Ext)
    (k : A -> M B) (w : World) :
  bind (extern c op) k w
  = match op (ext w) with
    | (Ok a, e) => k a {| ext := e; calls := calls w ++ [c] |}
    | (Raise x, e) => (Raise x, {| ext := e; calls := calls w ++ [c] |})
    end.
Proof.
  unfold bind, extern. destruct (op (ext w)) as [[a | x] e]; reflexivity.
Qed.

(** What one run of [generate_barcode] does: it prints the payload, reads
    the clock, asks for the symbol and, when it gets one, saves it; what
    the last collaborator it reached returns or raises is its own outcome. *)
Lemma generate_barcode_run (self : BarcodeGenerator) (sn : string) (sc : Z)
    (pn : string) (w : World) :
  let data := barcode_data sn sc pn in
  let e1 := host_print ("barcode_data: " +:+ data) (ext w) in
  let now := fst (host_now e1) in
  let e2 := snd (host_now e1) in
  let filename := barcode_filename self sn (strftime "%Y%m%d%H%M%S" now) in
  let writer := {| format := "JPEG" |} in
  let asked := [print_call ("barcode_data: " +:+ data); datetime_now_call;
                barcode_get_call "code128" data writer] in
  generate_barcode self sn sc pn w =
  match host_barcode_get "code128" data writer e2 with
  | (Raise x, e3) => (Raise x, {| ext := e3; calls := calls w ++ asked |})
  | (Ok symbol, e3) =>
      (fst (host_save symbol filename e3),
       {| ext := snd (host_save symbol filename e3);
          calls := calls w ++ asked ++ [save_call symbol filename] |})
  end.
Proof.
  intros data e1 now e2 filename writer asked.
  unfold generate_barcode, print, datetime_now, barcode_get, save.
  rewrite bind_extern. fold data. fold e1.
  rewrite bind_extern. cbn [ext calls].
  subst now e2 filename. destruct (host_now e1) as [dt e2]. cbn [fst snd].
  rewrite bind_extern. cbn [ext calls]. fold writer.
  destruct (host_barcode_get "code128" data writer e2) as [[symbol | x] e3].
  - rewrite bind_extern. cbn [ext calls]. unfold ret.
    destruct (host_save symbol _ e3) as [[path | x] e4]; cbn [fst snd];
      rewrite <- !app_assoc; reflexivity.
  - rewrite <- !app_assoc. reflexivity.
Qed.

(** One rendering request is made in every run, with these arguments. *)
Lemma generate_barcode_rendering (self : BarcodeGenerator) (sn : string)
    (sc : Z) (pn : string) (w : World) :
  rendering_calls
    (calls_since w (snd (generate_barcode self sn sc pn w)))
  = [("code128", barcode_data sn sc pn, {| format := "JPEG" |})].
Proof.
  rewrite generate_barcode_run.
  destruct (host_barcode_get _ _ _ _) as [[symbol | x] e3]; cbn [snd];
    rewrite calls_since_app; reflexivity.
Qed.



(** C7. [generate_barcode_with_default_cycles] is [generate_barcode] with
    the cycles in second place, and with the default of 1000 cycles the
    text it asks to render has SC:1000 in the middle. *)
Theorem default_cycles_forward (self : BarcodeGenerator) (sn pn : string)
    (default_cycles : Z) (w : World) :
  generate_barcode_with_default_cycles self sn pn default_cycles w
  = generate_barcode self sn default_cycles pn w
  /\ rendering_calls
       (calls_since w
          (snd (generate_barcode_with_default_cycles self sn pn
                  Defaults.default_cycles w)))
     = [("code128", "SN:" +:+ sn +:+ "|SC:1000|PN:" +:+ pn,
         {| format := "JPEG" |})].
Proof.
  split; [reflexivity |].
  unfold generate_barcode_with_default_cycles.
  rewrite generate_barcode_rendering. reflexivity.
Qed.

(** C9. Failures are passed on as they are. When the directory is absent
    and its creation raises, the constructor raises the same exception
    after that one attempt; when the symbol construction raises,
    [generate_barcode] raises the same exception, having asked once and
    saved nothing; when saving raises, it raises the same exception after
    one request and one save. In each case the world is left as the failing
    collaborator left it. *)
Theorem failures_propagate (self : BarcodeGenerator) (dir sn : string)
    (sc : Z) (pn : string) (w : World) (x : Exn) :
  (forall e1 e2 : Ext,
      host_path_exists dir (ext w) = (false, e1) ->
      host_makedirs dir e1 = (Raise x, e2) ->
      __init__ dir w
      = (Raise x, {| ext := e2;
                     calls := calls w ++ [os_path_exists_call dir;
                                          os_makedirs_call dir] |}))
  /\ (let data := barcode_data sn sc pn in
      let e1 := host_print ("barcode_data: " +:+ data) (ext w) in
      let filename :=
        barcode_filename self sn (strftime "%Y%m%d%H%M%S" (fst (host_now e1))) in
      let asked := [print_call ("barcode_data: " +:+ data); datetime_now_call;
                    barcode_get_call "code128" data {| format := "JPEG" |}] in
      (forall e3 : Ext,
          host_barcode_get "code128" data {| format := "JPEG" |}
                           (snd (host_now e1)) = (Raise x, e3) ->
          generate_barcode self sn sc pn w
          = (Raise x, {| ext := e3; calls := calls w ++ asked |}))
      /\ (forall (symbol : Code) (e3 e4 : Ext),
             host_barcode_get "code128" data {| format := "JPEG" |}
                              (snd (host_now e1)) = (Ok symbol, e3) ->
             host_save symbol filename e3 = (Raise x, e4) ->
             generate_barcode self sn sc pn w
             = (Raise x, {| ext := e4;
                            calls := calls w ++ asked
                                     ++ [save_call symbol filename] |}))).
Proof.
  split; [| intros data e1 filename asked; split].
  - intros e1 e2 Hex Hmk.
    unfold __init__, os_path_exists, os_makedirs.
    rewrite bind_extern, Hex. cbn [negb]. rewrite bind_extern.
    cbn [ext calls]. rewrite Hmk, <- app_assoc. reflexivity.
  - intros e3 Hget. rewrite generate_barcode_run. fold data. fold e1.
    rewrite Hget. reflexivity.
  - intros symbol e3 e4 Hget Hsave. rewrite generate_barcode_run.
    fold data. fold e1. rewrite Hget. fold filename. rewrite Hsave.
    reflexivity.
Qed.

End Barcode.

(** ** Random serial numbers *)

Lemma digit_at (i : nat) :
  (i < 10)%nat ->
  exists c : ascii, String.get i string_digits = Some c /\ is_digit c = true.
Proof.
  intros Hi.
  do 10 (destruct i as [| i]; [eexists; split; reflexivity |]).
  lia.
Qed.

Lemma length_join_chars (cs : list ascii) :
  String.length (join_chars cs) = List.length cs.
Proof.
  induction cs as [| c cs IH]; [reflexivity |].
  cbn [join_chars string_of_list_ascii String.length List.length].
  unfold join_chars in IH. now rewrite IH.
Qed.

Lemma all_digits_join_chars (cs : list ascii) :
  all_digits (join_chars cs) = forallb is_digit cs.
Proof.
  unfold all_digits, join_chars.
  now rewrite list_ascii_of_string_of_list_ascii.
Qed.

Section Serials.
Context `{Platform}.

(** Drawing from the ten digits never raises and gives [k] digits. *)
Lemma choices_draw_digits (k : nat) (e : Ext) :
  exists (cs : list ascii) (e' : Ext),
    choices_draw string_digits k e = (Ok cs, e')
    /\ List.length cs = k /\ forallb is_digit cs = true.
Proof.
  revert e. induction k as [| k IH]; intros e.
  - exists [], e. repeat split.
  - cbn [choices_draw].
    pose proof (host_random_below_lt (String.length string_digits) e) as Hlt.
    destruct (host_random_below (String.length string_digits) e) as [i e1].
    cbn [fst] in Hlt.
    destruct (digit_at i) as [c [Hget Hc]]; [apply Hlt; cbn; lia |].
    rewrite Hget.
    destruct (IH e1) as [cs [e2 [Hrun [Hlen Hdig]]]].
    rewrite Hrun. exists (c :: cs), e2. repeat split.
    + cbn [List.length]. now rewrite Hlen.
    + cbn [forallb]. now rewrite Hc, Hdig.
Qed.

(** One run of [generate_random_serial]: one call of [random.choices], and
    the prefix followed by the digits drawn. *)
Lemma generate_random_serial_run (prefix : string) (length : Z) (w : World) :
  exists (ds : string) (e' : Ext),
    generate_random_serial prefix length w
    = (Ok (prefix +:+ ds),
       {| ext := e';
          calls := calls w ++ [random_choices_call string_digits length] |})
    /\ String.length ds = Z.to_nat length /\ all_digits ds = true.
Proof.
  destruct (choices_draw_digits (Z.to_nat length) (ext w))
    as [cs [e' [Hrun [Hlen Hdig]]]].
  exists (join_chars cs), e'.
  unfold generate_random_serial, random_choices.
  rewrite bind_extern, Hrun. unfold ret.
  rewrite length_join_chars, all_digits_join_chars. auto.
Qed.



End Serials.

(** ** Batches of serial numbers *)

Lemma size_add_le (s : string) (X : gset string) :
  (size ({[ s ]} ∪ X) <= S (size X))%nat.
Proof.
  rewrite size_union_alt, size_singleton.
  assert (Hsub : X ∖ {[ s ]} ⊆ X) by now apply subseteq_difference_l.
  apply subseteq_size in Hsub. lia.
Qed.

Lemma size_list_to_set_le (l : list string) :
  (size (list_to_set l : gset string) <= List.length l)%nat.
Proof.
  induction l as [| x l IH]; [now rewrite list_to_set_nil, size_empty |].
  rewrite list_to_set_cons. cbn [List.length].
  pose proof (size_add_le x (list_to_set l)). lia.
Qed.

Lemma digit_strings_length (n : nat) :
  Z.of_nat (List.length (digit_strings n)) = 10 ^ Z.of_nat n.
Proof.
  induction n as [| n IH]; [reflexivity |].
  rewrite Nat2Z.inj_succ, Z.pow_succ_r by lia. rewrite <- IH.
  cbn [digit_strings string_digits list_ascii_of_string flat_map].
  rewrite !length_app, !length_map. cbn [List.length]. lia.
Qed.

Lemma digit_strings_complete (ds : string) :
  all_digits ds = true -> In ds (digit_strings (String.length ds)).
Proof.
  induction ds as [| c ds IH]; intros Hds.
  - now left.
  - unfold all_digits in Hds. cbn [list_ascii_of_string forallb] in Hds.
    apply andb_true_iff in Hds as [Hc Hds].
    cbn [String.length digit_strings]. apply in_flat_map.
    exists c. split.
    + now apply in_class_In.
    + apply in_map, IH, Hds.
Qed.

(** A set of serial numbers of one shape has at most [10 ^ n] elements. *)
Lemma size_serials_le (prefix : string) (n : nat) (X : gset string) :
  set_Forall (serial_of prefix n) X -> Z.of_nat (size X) <= 10 ^ Z.of_nat n.
Proof.
  intros HX. rewrite <- digit_strings_length.
  rewrite <- (length_map (String.append prefix) (digit_strings n)).
  apply inj_le. etransitivity; [| apply size_list_to_set_le].
  apply subseteq_size. intros s Hs.
  destruct (HX s Hs) as [ds [-> [Hlen Hdig]]].
  apply elem_of_list_to_set, list_elem_of_In, in_map.
  rewrite <- Hlen. now apply digit_strings_complete.
Qed.

Section Batch.
Context `{Platform}.

Lemma draws_succ (n : nat) (prefix : string) (length : Z) (w w1 : World)
    (s : string) :
  generate_random_serial prefix length w = (Ok s, w1) ->
  draws (S n) prefix length w = s :: draws n prefix length w1.
Proof. intros Hrun. cbn [draws]. now rewrite Hrun. Qed.

(** Once the draws to come bring the set to [count] elements, the loop
    leaves with exactly [count] of them. *)
Lemma batch_loop_returns (n : nat) :
  forall (fuel : nat) (count : Z) (prefix : string) (length : Z)
         (serials : gset string) (w : World),
    (n < fuel)%nat ->
    count <= Z.of_nat (size (serials ∪ list_to_set (draws n prefix length w))) ->
    exists (result : gset string) (w' : World),
      batch_loop fuel count prefix length serials w = Some (Ok result, w')
      /\ (Z.of_nat (size serials) <= count -> Z.of_nat (size result) = count)
      /\ (count <= Z.of_nat (size serials) -> result = serials)
      /\ (set_Forall (serial_of prefix (Z.to_nat length)) serials ->
          set_Forall (serial_of prefix (Z.to_nat length)) result).
Proof.
  induction n as [| n IH]; intros fuel count prefix length serials w Hfuel Hfair;
    (destruct fuel as [| fuel]; [lia |]); cbn [batch_loop];
    destruct (Z.ltb_spec (Z.of_nat (size serials)) count) as [Hlt | Hge];
    try (exists serials, w; repeat split; [lia | auto ..]).
  - cbn [draws] in Hfair. rewrite list_to_set_nil, (right_id_L ∅ (∪)) in Hfair. lia.
  - destruct (generate_random_serial_run prefix length w)
      as [ds [e' [Hrun [Hlen Hdig]]]].
    rewrite (draws_succ _ _ _ _ _ _ Hrun), list_to_set_cons in Hfair.
    rewrite Hrun.
    replace (serials ∪ ({[prefix +:+ ds]} ∪ list_to_set (draws n prefix length _)))
      with (({[prefix +:+ ds]} ∪ serials) ∪ list_to_set (draws n prefix length
              {| ext := e';
                 calls := calls w ++ [random_choices_call string_digits length] |}))
      in Hfair
      by (rewrite (assoc_L (∪)); f_equal; apply (comm_L (∪))).
    destruct (IH fuel count prefix length _ _ ltac:(lia) Hfair)
      as [result [w' [Hloop [Hsize [_ Hshape]]]]].
    exists result, w'. split; [exact Hloop |].
    pose proof (size_add_le (prefix +:+ ds) serials) as Hadd.
    split; [intros _; apply Hsize; lia |].
    split; [lia |].
    intros Hall. apply Hshape, set_Forall_union; [| assumption].
    apply set_Forall_singleton. now exists ds.
Qed.

(** Beyond the number of serial numbers of the shape the loop never
    leaves, whatever is drawn. *)
Lemma batch_loop_diverges (fuel : nat) :
  forall (count : Z) (prefix : string) (length : Z) (serials : gset string)
         (w : World),
    0 <= length -> 10 ^ length < count ->
    set_Forall (serial_of prefix (Z.to_nat length)) serials ->
    batch_loop fuel count prefix length serials w = None.
Proof.
  induction fuel as [| fuel IH]; intros count prefix length serials w Hlen Hcount Hall;
    [reflexivity |].
  cbn [batch_loop].
  pose proof (size_serials_le _ _ _ Hall) as Hsize.
  rewrite Z2Nat.id in Hsize by assumption.
  destruct (Z.ltb_spec (Z.of_nat (size serials)) count) as [_ | Hge]; [| lia].
  destruct (generate_random_serial_run prefix length w)
    as [ds [e' [Hrun [Hds Hdig]]]].
  rewrite Hrun. apply IH; try assumption.
  apply set_Forall_union; [| assumption].
  apply set_Forall_singleton. now exists ds.
Qed.

(** C4, as amended. When the next [n] serial numbers that the random
    source gives hold at least [count] different ones, a run of
    [generate_batch_serials] with more than [n] tests of its loop condition
    returns, without raising, a list of exactly [count] serial numbers
    (none for a [count] that is not positive), pairwise different, each the
    prefix followed by exactly [length] decimal digits. And when [length] is
    not negative and [count] exceeds [10 ^ length], no number of tests lets
    the loop leave. *)
Theorem generate_batch_serials_returns (count : Z) (prefix : string)
    (length : Z) (w : World) (n fuel : nat) :
  (count <= Z.of_nat (size (list_to_set (draws n prefix length w) : gset string)) ->
   (n < fuel)%nat ->
   exists (l : list string) (w' : World),
     generate_batch_serials fuel count prefix length w = Some (Ok l, w')
     /\ Z.of_nat (List.length l) = Z.max 0 count
     /\ List.NoDup l
     /\ Forall (serial_of prefix (Z.to_nat length)) l)
  /\ (0 <= length -> 10 ^ length < count ->
      generate_batch_serials fuel count prefix length w = None).
Proof.
  split.
  - intros Hfair Hfuel. unfold generate_batch_serials.
    destruct (batch_loop_returns n fuel count prefix length ∅ w Hfuel)
      as [result [w' [Hloop [Hsize [Hnone Hshape]]]]].
    { now rewrite (left_id_L ∅ (∪)). }
    rewrite Hloop. exists (elements result), w'. split; [reflexivity |].
    rewrite size_empty in Hsize, Hnone.
    split; [| split].
    + change (List.length (elements result)) with (size result).
      destruct (Z.le_gt_cases 0 count) as [Hpos | Hneg].
      * rewrite Hsize; lia.
      * rewrite Hnone by (cbn; lia). rewrite size_empty. lia.
    + apply NoDup_ListNoDup, NoDup_elements.
    + apply Forall_forall. intros s Hs.
      apply (Hshape (set_Forall_empty _)).
      now apply elem_of_elements.
  - intros Hlen Hcount. unfold generate_batch_serials.
    rewrite batch_loop_diverges; try assumption; [reflexivity |].
    apply set_Forall_empty.
Qed.

End Batch.

(** ** Runs on the test host *)

Section OnTestHost.
Import TestHost.
#[local] Existing Instance platform.

Example generator_creates_directory :
  __init__ "new_dir" (world_of host0)
  = (Ok {| output_dir := "new_dir" |},
     {| ext := with_existing host0 ["new_dir"];
        calls := [os_path_exists_call "new_dir"; os_makedirs_call "new_dir"] |}).
Proof. reflexivity. Qed.

Example generator_keeps_directory :
  makedirs_calls
    (calls (snd (__init__ "existing_dir"
                   (world_of (with_existing host0 ["existing_dir"])))))
  = [].
Proof. reflexivity. Qed.

Example generate_barcode_example :
  generate_barcode {| output_dir := "test_barcodes" |} "SN12345" 5000 "PN-ABC-789"
                   (world_of host0)
  = (Ok "test_barcodes/barcode_SN12345_20231015123045.jpeg",
     {| ext := with_stdout host0 ["barcode_data: SN:SN12345|SC:5000|PN:PN-ABC-789"];
        calls := [print_call "barcode_data: SN:SN12345|SC:5000|PN:PN-ABC-789";
                  datetime_now_call;
                  barcode_get_call "code128" "SN:SN12345|SC:5000|PN:PN-ABC-789"
                                   {| format := "JPEG" |};
                  save_call "SN:SN12345|SC:5000|PN:PN-ABC-789"
                            "test_barcodes/barcode_SN12345_20231015123045"] |}).
Proof. reflexivity. Qed.

Example generate_random_serial_default :
  generate_random_serial Defaults.prefix Defaults.length (world_of host0)
  = (Ok "SN01234567",
     {| ext := with_counter host0 8;
        calls := [random_choices_call "0123456789" 8] |}).
Proof. reflexivity. Qed.

Example generate_random_serial_custom :
  fst (generate_random_serial "PART" 5 (world_of host0)) = Ok "PART01234".
Proof. reflexivity. Qed.

Example generate_barcode_with_random_serial_example :
  fst (generate_barcode_with_random_serial {| output_dir := Defaults.output_dir |}
         "PN-TEST" 2000 Defaults.prefix Defaults.length (world_of host0))
  = Ok ("barcodes/barcode_SN01234567_20231015123045.jpeg", "SN01234567").
Proof. reflexivity. Qed.

Example generate_random_serial_negative :
  fst (generate_random_serial "SN" (-1) (world_of host0)) = Ok "SN".
Proof. reflexivity. Qed.

Example generate_batch_serials_example :
  fst <$> generate_batch_serials 4 3 "SN" 1 (world_of host0)
  = Some (Ok ["SN1"; "SN2"; "SN0"]).
Proof. vm_compute. reflexivity. Qed.

Lemma sanitize_filename_replaces_witness :
  String.get 1 (_sanitize_filename "a/b") = Some "_"%char
  /\ String.get 2 (_sanitize_filename "a/b") = Some "b"%char.
Proof.
  split.
  - apply (proj1 (sanitize_filename_replaces "a/b" 1)).
    right. left. reflexivity.
  - apply (proj2 (sanitize_filename_replaces "a/b" 2)).
    intros Hin. repeat (destruct Hin as [Hin | Hin]; [discriminate Hin |]).
    exact Hin.
Defined.


Lemma generate_batch_serials_returns_witness :
  (exists (l : list string) (w' : World),
      generate_batch_serials 4 3 "SN" 1 (world_of host0) = Some (Ok l, w')
      /\ Z.of_nat (List.length l) = Z.max 0 3
      /\ List.NoDup l
      /\ Forall (serial_of "SN" (Z.to_nat 1)) l)
  /\ generate_batch_serials 50 11 "SN" 1 (world_of host0) = None.
Proof.
  split.
  - apply (proj1 (generate_batch_serials_returns 3 "SN" 1 (world_of host0) 3 4)).
    + vm_compute. discriminate.
    + lia.
  - apply (proj2 (generate_batch_serials_returns 11 "SN" 1 (world_of host0) 0 50)).
    + lia.
    + reflexivity.
Defined.

Lemma failures_propagate_witness :
  __init__ "locked" (world_of (mkHost [] noon O false true false false []))
  = (Raise "PermissionError",
     {| ext := mkHost [] noon O false true false false [];
        calls := [os_path_exists_call "locked"; os_makedirs_call "locked"] |})
  /\ fst (generate_barcode {| output_dir := "out" |} "SN1" 5 "PN1"
            (world_of (mkHost [] noon O false false true false [])))
     = Raise "IllegalCharacterError"
  /\ fst (generate_barcode {| output_dir := "out" |} "SN1" 5 "PN1"
            (world_of (mkHost [] noon O false false false true [])))
     = Raise "OSError".
Proof.
  split; [| split].
  - exact (proj1 (failures_propagate {| output_dir := "out" |} "locked" "SN1" 5 "PN1"
                    (world_of (mkHost [] noon O false true false false []))
                    "PermissionError") _ _ eq_refl eq_refl).
  - rewrite (proj1 (proj2 (failures_propagate {| output_dir := "out" |} "locked"
                             "SN1" 5 "PN1"
                             (world_of (mkHost [] noon O false false true false []))
                             "IllegalCharacterError")) _ eq_refl).
    reflexivity.
  - rewrite (proj2 (proj2 (failures_propagate {| output_dir := "out" |} "locked"
                             "SN1" 5 "PN1"
                             (world_of (mkHost [] noon O false false false true []))
                             "OSError")) _ _ _ eq_refl eq_refl).
    reflexivity.
Defined.

Lemma stuck_draw (cs : list Call) :
  generate_random_serial "SN" 1 (@mkWorld platform stuck_host cs)
  = (Ok "SN0",
     @mkWorld platform stuck_host (cs ++ [random_choices_call string_digits 1])).
Proof. reflexivity. Qed.

(** With a random source that keeps drawing the same digit the set never
    grows beyond one serial number. *)
Lemma batch_loop_stuck (fuel : nat) :
  forall (serials : gset string) (cs : list Call),
    serials ⊆ {[ "SN0" ]} ->
    batch_loop fuel 2 "SN" 1 serials (@mkWorld platform stuck_host cs) = None.
Proof.
  induction fuel as [| fuel IH]; intros serials cs Hsub; [reflexivity |].
  cbn [batch_loop].
  pose proof (subseteq_size _ _ Hsub) as Hsize. rewrite size_singleton in Hsize.
  destruct (Z.ltb_spec (Z.of_nat (size serials)) 2) as [_ | Hge]; [| lia].
  rewrite stuck_draw. apply IH. apply union_least; [reflexivity | assumption].
Qed.

(** C4, as stated, fails: with a random source that keeps drawing the same
    digit, two serial numbers of one digit are never collected although
    [2 <= 10 ^ 1]; no number of tests of the loop condition gives a
    result. *)
Lemma generate_batch_serials_not_total :
  2 <= 10 ^ 1
  /\ forall fuel : nat,
       generate_batch_serials fuel 2 "SN" 1 (world_of stuck_host) = None.
Proof.
  split; [lia |]. intros fuel. unfold generate_batch_serials, world_of.
  rewrite batch_loop_stuck; [reflexivity | apply empty_subseteq].
Qed.

End OnTestHost.

(** * Further properties of the code *)

(** ** More on file name sanitization *)

Lemma sanitize_append (a b : string) :
  _sanitize_filename (a +:+ b) = _sanitize_filename a +:+ _sanitize_filename b.
Proof.
  induction a as [| x a IH]; [reflexivity |].
  change (String x a +:+ b) with (String x (a +:+ b)).
  rewrite !sanitize_cons, IH. reflexivity.
Qed.

Lemma sanitize_clean (s : string) (c : ascii) :
  in_class invalid_chars c = true -> contains c (_sanitize_filename s) = false.
Proof.
  intros Hc. induction s as [| x s IH]; [reflexivity |].
  rewrite sanitize_cons, contains_cons, IH, orb_false_r.
  apply Ascii.eqb_neq. intros ->.
  destruct (in_class invalid_chars x) eqn:Hx; [discriminate Hc | congruence].
Qed.

Lemma sanitize_fixed (s : string) :
  _sanitize_filename s = s
  <-> forall c : ascii, in_class invalid_chars c = true -> contains c s = false.
Proof.
  split.
  - intros Hs c Hc. rewrite <- Hs. now apply sanitize_clean.
  - induction s as [| x s IH]; intros Hclean; [reflexivity |].
    rewrite sanitize_cons.
    destruct (in_class invalid_chars x) eqn:Hx.
    + specialize (Hclean x Hx). rewrite contains_cons, Ascii.eqb_refl in Hclean.
      discriminate Hclean.
    + f_equal. apply IH. intros c Hc. specialize (Hclean c Hc).
      rewrite contains_cons in Hclean. now apply orb_false_iff in Hclean.
Qed.

Lemma digits_not_invalid (s : string) (c : ascii) :
  all_digits s = true -> in_class invalid_chars c = true -> contains c s = false.
Proof.
  intros Hs Hc. apply contains_all_digits; [| assumption].
  destruct (is_digit c) eqn:Hd; [| reflexivity].
  apply in_class_In in Hd. cbn in Hd.
  repeat (destruct Hd as [<- | Hd]; [discriminate Hc |]). destruct Hd.
Qed.

(** X1. The result of [_sanitize_filename] holds none of the characters of
    the replaced class, whatever the input. *)
Theorem sanitize_filename_clean (s : string) (c : ascii) :
  In c invalid_chars -> contains c (_sanitize_filename s) = false.
Proof.
  intros Hc%in_class_In. induction s as [| x s IH]; [reflexivity |].
  rewrite sanitize_cons, contains_cons, IH, orb_false_r.
  apply Ascii.eqb_neq. intros ->.
  destruct (in_class invalid_chars x) eqn:Hx; [discriminate Hc | congruence].
Qed.

(** X2. [_sanitize_filename] leaves a name as it is exactly when the name
    holds none of the characters of the replaced class. *)
Theorem sanitize_filename_fixed_points (s : string) :
  _sanitize_filename s = s
  <-> forall c : ascii, In c invalid_chars -> contains c s = false.
Proof.
  rewrite sanitize_fixed. split; intros Hs c Hc; apply Hs; now apply in_class_In.
Qed.

(** X3. Sanitizing a concatenation is concatenating the sanitized parts:
    every character is treated on its own, whatever is around it. *)
Theorem sanitize_filename_append (a b : string) :
  _sanitize_filename (a +:+ b) = _sanitize_filename a +:+ _sanitize_filename b.
Proof.
  induction a as [| x a IH]; [reflexivity |].
  change (String x a +:+ b) with (String x (a +:+ b)).
  rewrite !sanitize_cons, IH.
  destruct (in_class invalid_chars x); reflexivity.
Qed.

(** X4. Two serial numbers that differ only in which character of the
    replaced class stands at one place get the same file name stem for the
    same time stamp: the file name does not tell them apart. *)
Theorem barcode_filename_collision (self : BarcodeGenerator) (a b : string)
    (c1 c2 : ascii) (timestamp : string) :
  In c1 invalid_chars -> In c2 invalid_chars ->
  barcode_filename self (a +:+ String c1 b) timestamp
  = barcode_filename self (a +:+ String c2 b) timestamp.
Proof.
  intros H1%in_class_In H2%in_class_In. unfold barcode_filename.
  now rewrite !sanitize_append, !sanitize_cons, H1, H2.
Qed.


(** X6. A serial number made of a prefix without characters of the
    replaced class and of decimal digits, as [generate_random_serial] makes
    them from such a prefix, is left as it is by [_sanitize_filename]. *)
Theorem sanitize_filename_serial (prefix : string) (n : nat) (s : string) :
  serial_of prefix n s ->
  _sanitize_filename prefix = prefix ->
  _sanitize_filename s = s.
Proof.
  intros [ds [-> [_ Hdig]]] Hprefix.
  rewrite sanitize_append, Hprefix. f_equal.
  apply sanitize_fixed. intros c Hc. now apply digits_not_invalid.
Qed.

(** ** More on the payload *)

Lemma append_inj_l (a b c : string) : a +:+ b = a +:+ c -> b = c.
Proof.
  induction a as [| x a IH]; intros Heq; [exact Heq |].
  change (String x (a +:+ b) = String x (a +:+ c)) in Heq.
  injection Heq as Heq. now apply IH.
Qed.

Lemma str_int_inj (m n : Z) : str_int m = str_int n -> m = n.
Proof.
  intros Heq. apply (f_equal parse_int) in Heq.
  rewrite !parse_int_str_int in Heq. now injection Heq.
Qed.

Lemma payload_tail_inj (sc sc' : Z) (pn pn' : string) :
  str_int sc +:+ "|PN:" +:+ pn = str_int sc' +:+ "|PN:" +:+ pn' ->
  sc = sc' /\ pn = pn'.
Proof.
  intros Heq. apply (f_equal (split_once "|")) in Heq.
  change ("|PN:" +:+ pn) with (String "|" ("PN:" +:+ pn)) in Heq.
  change ("|PN:" +:+ pn') with (String "|" ("PN:" +:+ pn')) in Heq.
  rewrite !split_once_app in Heq
    by (apply contains_str_int; [reflexivity | discriminate]).
  injection Heq as Hsc Hpn. split; [now apply str_int_inj | exact Hpn].
Qed.

(** X7. For one serial number the payload tells the service cycles and the
    part number apart, whatever characters the three fields hold. *)
Theorem barcode_data_inj_tail (sn : string) (sc sc' : Z) (pn pn' : string) :
  barcode_data sn sc pn = barcode_data sn sc' pn' ->
  sc = sc' /\ pn = pn'.
Proof.
  unfold barcode_data. intros Heq.
  apply (append_inj_l "SN:"), append_inj_l, (append_inj_l "|SC:") in Heq.
  now apply payload_tail_inj.
Qed.

(** X8. Two requests whose serial numbers hold no vertical bar and whose
    payloads are equal are the same request. *)
Theorem barcode_data_inj (sn sn' : string) (sc sc' : Z) (pn pn' : string) :
  contains "|" sn = false -> contains "|" sn' = false ->
  barcode_data sn sc pn = barcode_data sn' sc' pn' ->
  sn = sn' /\ sc = sc' /\ pn = pn'.
Proof.
  unfold barcode_data. intros Hsn Hsn' Heq.
  apply (append_inj_l "SN:") in Heq.
  pose proof (f_equal (split_once "|") Heq) as Hcut.
  change ("|SC:" +:+ str_int sc +:+ "|PN:" +:+ pn)
    with (String "|" ("SC:" +:+ str_int sc +:+ "|PN:" +:+ pn)) in Hcut.
  change ("|SC:" +:+ str_int sc' +:+ "|PN:" +:+ pn')
    with (String "|" ("SC:" +:+ str_int sc' +:+ "|PN:" +:+ pn')) in Hcut.
  rewrite !split_once_app in Hcut by assumption.
  injection Hcut as Hs Hrest. split; [assumption |].
  now apply payload_tail_inj.
Qed.

(** ** More on the constructor and on generating a barcode *)

Section MoreRuns.
Context `{Platform}.

Lemma bind_run {A B : Type} (m : M A) (k : A -> M B) (w : World) :
  bind m k w
  = match m w with
    | (Ok a, w') => k a w'
    | (Raise x, w') => (Raise x, w')
    end.
Proof. reflexivity. Qed.

(** X9. The constructor asks once whether the directory exists and creates
    it, with one call, only when it does not; when the directory exists the
    world outside is left as the question left it; and a generator that it
    returns holds the directory it was given. *)
Theorem init_creates_missing_directory (dir : string) (w : World) :
  calls_since w (snd (__init__ dir w))
  = os_path_exists_call dir
    :: (if fst (host_path_exists dir (ext w)) then [] else [os_makedirs_call dir])
  /\ (fst (host_path_exists dir (ext w)) = true ->
      __init__ dir w
      = (Ok {| output_dir := dir |},
         {| ext := snd (host_path_exists dir (ext w));
            calls := calls w ++ [os_path_exists_call dir] |}))
  /\ (forall g : BarcodeGenerator,
         fst (__init__ dir w) = Ok g -> output_dir g = dir).
Proof.
  unfold __init__, os_path_exists, os_makedirs.
  rewrite bind_extern. cbv beta.
  destruct (host_path_exists dir (ext w)) as [[|] e1]; cbv iota beta;
    cbn [fst snd negb].
  - unfold ret. cbn [snd]. rewrite calls_since_app.
    repeat split. intros g [= <-]. reflexivity.
  - rewrite bind_extern. cbn [ext calls].
    destruct (host_makedirs dir e1) as [[[] | x] e2]; unfold ret; cbn [fst snd];
      rewrite <- app_assoc, calls_since_app;
      (split; [reflexivity |]); (split; [discriminate |]).
    + intros g [= <-]. reflexivity.
    + intros g [=].
Qed.

(** X10. When the symbol is built and saved, [generate_barcode] returns
    the path that the save operation reports, as it is (with whatever
    extension the writer added to the stem), after one request and one
    save. *)
Theorem generate_barcode_returns_saved_path (self : BarcodeGenerator)
    (sn : string) (sc : Z) (pn : string) (w : World)
    (symbol : Code) (path : string) (e3 e4 : Ext) :
  let data := barcode_data sn sc pn in
  let e1 := host_print ("barcode_data: " +:+ data) (ext w) in
  let filename :=
    barcode_filename self sn (strftime "%Y%m%d%H%M%S" (fst (host_now e1))) in
  host_barcode_get "code128" data {| format := "JPEG" |} (snd (host_now e1))
  = (Ok symbol, e3) ->
  host_save symbol filename e3 = (Ok path, e4) ->
  generate_barcode self sn sc pn w
  = (Ok path,
     {| ext := e4;
        calls := calls w ++ [print_call ("barcode_data: " +:+ data);
                             datetime_now_call;
                             barcode_get_call "code128" data {| format := "JPEG" |};
                             save_call symbol filename] |}).
Proof.
  intros data e1 filename Hget Hsave.
  rewrite generate_barcode_run. fold data. fold e1.
  rewrite Hget. fold filename. rewrite Hsave. reflexivity.
Qed.




(** X14. When [generate_barcode_with_random_serial] returns a path and a
    serial number, that serial number has the shape asked for, it is the
    one in the payload of the only rendering request of the run, and it is
    the one whose sanitized form is in the only stem given to the save
    operation. *)
Theorem random_serial_is_encoded (self : BarcodeGenerator) (pn : string)
    (sc : Z) (prefix : string) (length : Z) (w w' : World)
    (path serial : string) :
  generate_barcode_with_random_serial self pn sc prefix length w
  = (Ok (path, serial), w') ->
  serial_of prefix (Z.to_nat length) serial
  /\ rendering_calls (calls_since w w')
     = [("code128", barcode_data serial sc pn, {| format := "JPEG" |})]
  /\ exists timestamp : string,
       saved_filenames (calls_since w w')
       = [output_dir self +:+ "/barcode_" +:+ _sanitize_filename serial
          +:+ "_" +:+ timestamp].
Proof.
  unfold generate_barcode_with_random_serial. rewrite bind_run.
  destruct (generate_random_serial_run prefix length w)
    as [ds [e' [Hrun [Hlen Hdig]]]].
  rewrite Hrun, bind_run, generate_barcode_run. cbn [ext calls].
  destruct (host_barcode_get _ _ _ _) as [[symbol | x] e3]; [| discriminate].
  destruct (host_save symbol _ e3) as [[p | x] e4]; cbn [fst snd];
    [| discriminate].
  unfold ret. intros [= <- <- <-].
  split; [now exists ds |].
  rewrite <- app_assoc, calls_since_app.
  split; [reflexivity |]. eexists. reflexivity.
Qed.

End MoreRuns.

(** ** More on batches *)

Section MoreBatch.
Context `{Platform}.



(** X15. A count that is not positive gives the empty list at the first
    test of the loop condition: nothing is drawn and the world is left as
    it was. *)
Theorem generate_batch_serials_nonpositive (fuel : nat) (count : Z)
    (prefix : string) (length : Z) (w : World) :
  count <= 0 ->
  generate_batch_serials (S fuel) count prefix length w = Some (Ok [], w).
Proof.
  intros Hcount. unfold generate_batch_serials. cbn [batch_loop].
  rewrite size_empty.
  destruct (Z.ltb_spec (Z.of_nat 0) count) as [Hlt | _]; [lia |].
  now rewrite elements_empty.
Qed.



End MoreBatch.

(** ** The script *)

Section ScriptRuns.
Context `{Platform}.

Lemma rendering_calls_app (a b : list Call) :
  rendering_calls (a ++ b) = rendering_calls a ++ rendering_calls b.
Proof. apply flat_map_app. Qed.

Lemma init_run (dir : string) (w : World) :
  exists new : list Call,
    calls (snd (__init__ dir w)) = calls w ++ new
    /\ rendering_calls new = []
    /\ forall g : BarcodeGenerator,
         fst (__init__ dir w) = Ok g -> g = {| output_dir := dir |}.
Proof.
  unfold __init__, os_path_exists, os_makedirs.
  rewrite bind_extern. cbv beta.
  destruct (host_path_exists dir (ext w)) as [[|] e1]; cbv iota beta;
    cbn [negb].
  - unfold ret. eexists. split; [reflexivity |]. split; [reflexivity |].
    now intros g [= <-].
  - rewrite bind_extern. cbn [ext calls].
    destruct (host_makedirs dir e1) as [[[] | x] e2]; unfold ret; cbn [fst snd calls];
      rewrite <- app_assoc; eexists; (split; [reflexivity |]);
      (split; [reflexivity |]).
    + now intros g [= <-].
    + intros g [=].
Qed.

(** One round of a loop of the script: one serial number of the default
    shape is drawn and one rendering request is made for it. *)
Lemma report_barcode_run (generator : BarcodeGenerator) (pn : string) (sc : Z)
    (w : World) :
  exists (serial : string) (new : list Call),
    calls (snd (report_barcode generator pn sc w)) = calls w ++ new
    /\ rendering_calls new = [request sc pn serial]
    /\ serial_of Defaults.prefix (Z.to_nat Defaults.length) serial.
Proof.
  unfold report_barcode, generate_barcode_with_random_serial.
  rewrite !bind_run.
  destruct (generate_random_serial_run Defaults.prefix Defaults.length w)
    as [ds [e' [Hrun [Hlen Hdig]]]].
  rewrite Hrun. cbv beta iota. rewrite bind_run, generate_barcode_run.
  cbn [ext calls].
  exists (Defaults.prefix +:+ ds).
  destruct (host_barcode_get _ _ _ _) as [[symbol | x] e3].
  - destruct (host_save symbol _ e3) as [[p | x] e4]; cbn [fst snd];
      unfold ret, print, extern; cbn [fst snd ext calls];
      rewrite <- ?app_assoc; eexists;
      (split; [reflexivity |]); (split; [reflexivity | now exists ds]).
  - cbn [snd calls]. rewrite <- app_assoc. eexists.
    split; [reflexivity |]. split; [reflexivity | now exists ds].
Qed.

(** A loop of the script: one request for each round entered, for serial
    numbers of the default shape; all the rounds when nothing raises. *)
Lemma for_each_report (generator : BarcodeGenerator) (pn : string) (sc : Z)
    (items : list Z) :
  forall w : World,
    exists (serials : list string) (new : list Call),
      calls (snd (for_each items (fun _ => report_barcode generator pn sc) w))
      = calls w ++ new
      /\ rendering_calls new = map (request sc pn) serials
      /\ Forall (serial_of Defaults.prefix (Z.to_nat Defaults.length)) serials
      /\ (List.length serials <= List.length items)%nat
      /\ (fst (for_each items (fun _ => report_barcode generator pn sc) w) = Ok tt ->
          List.length serials = List.length items).
Proof.
  induction items as [| item items IH]; intros w.
  - exists [], []. cbn [for_each]. unfold ret. cbn [fst snd].
    rewrite app_nil_r. repeat split; auto.
  - cbn [for_each]. rewrite bind_run.
    destruct (report_barcode_run generator pn sc w)
      as [serial [new1 [Hcalls [Hrender Hshape]]]].
    destruct (report_barcode generator pn sc w) as [[[] | x] w1]; cbn [snd] in Hcalls.
    + destruct (IH w1) as [serials [new2 [Hcalls2 [Hrender2 [Hall [Hle Hok]]]]]].
      exists (serial :: serials), (new1 ++ new2).
      rewrite Hcalls2, Hcalls, <- app_assoc, rendering_calls_app, Hrender, Hrender2.
      split; [reflexivity |]. split; [reflexivity |].
      split; [now constructor |]. cbn [List.length].
      split; [lia |]. intros Hrun. now rewrite (Hok Hrun).
    + exists [serial], new1. cbn [fst snd List.length].
      split; [assumption |]. split; [assumption |].
      split; [now constructor |]. split; [lia | discriminate].
Qed.

(** X18. The script makes its rendering requests in two runs, first for
    part PN-DEF-456 with 3000 cycles, then for part PN-ABC-123 with 700
    cycles, each for a serial number made of SN and eight digits. Each run
    makes at most nine requests, [range(1, 10)] having nine elements; the
    second run starts only after nine requests of the first; and when the
    script ends without an exception it has made nine and nine. *)
Theorem main_requests (w : World) :
  exists first second : list string,
    rendering_calls (calls_since w (snd (main w)))
    = map (request 3000 "PN-DEF-456") first
      ++ map (request 700 "PN-ABC-123") second
    /\ Forall (serial_of "SN" 8) (first ++ second)
    /\ (List.length first <= 9)%nat
    /\ (List.length second <= 9)%nat
    /\ (second <> [] -> List.length first = 9%nat)
    /\ (fst (main w) = Ok tt ->
        List.length first = 9%nat /\ List.length second = 9%nat).
Proof.
  unfold main. rewrite bind_run.
  destruct (init_run Defaults.output_dir w) as [new0 [Hcalls0 [Hrender0 Hgen]]].
  destruct (__init__ Defaults.output_dir w) as [[generator | x] w0];
    cbn [fst snd] in Hcalls0, Hgen.
  - rewrite bind_run.
    destruct (for_each_report generator "PN-DEF-456" 3000 (range 1 10) w0)
      as [first [new1 [Hcalls1 [Hrender1 [Hall1 [Hle1 Hok1]]]]]].
    destruct (for_each (range 1 10) _ w0) as [[[] | x] w1];
      cbn [fst snd] in Hcalls1, Hok1.
    + destruct (for_each_report generator "PN-ABC-123" 700 (range 1 10) w1)
        as [second [new2 [Hcalls2 [Hrender2 [Hall2 [Hle2 Hok2]]]]]].
      exists first, second.
      unfold calls_since. rewrite Hcalls2, Hcalls1, Hcalls0, <- !app_assoc.
      rewrite drop_app_length, !rendering_calls_app, Hrender0, Hrender1, Hrender2.
      split; [reflexivity |]. split; [now apply Forall_app |].
      specialize (Hok1 eq_refl).
      repeat split; auto.
    + exists first, []. unfold calls_since. cbn [snd].
      rewrite Hcalls1, Hcalls0, <- !app_assoc.
      rewrite drop_app_length, !rendering_calls_app, Hrender0, Hrender1.
      rewrite !app_nil_r. split; [reflexivity |]. split; [assumption |].
      cbn [List.length]. repeat split; try assumption; try lia; try congruence.
      all: discriminate.
  - exists [], []. unfold calls_since. cbn [snd fst].
    rewrite Hcalls0, drop_app_length, Hrender0.
    cbn [List.length]. repeat split; try lia; try congruence; try constructor.
    all: discriminate.
Qed.

End ScriptRuns.

(** ** More runs on the test host *)

Section MoreOnTestHost.
Import TestHost.
#[local] Existing Instance platform.

Example sanitize_traversal :
  barcode_filename {| output_dir := "barcodes" |} "../../etc/passwd" "20231015123045"
  = "barcodes/barcode_.._.._etc_passwd_20231015123045".
Proof. reflexivity. Qed.

Example main_on_test_host :
  fst (main (world_of host0)) = Ok tt
  /\ List.length (rendering_calls (calls (snd (main (world_of host0))))) = 18%nat
  /\ makedirs_calls (calls (snd (main (world_of host0)))) = ["barcodes"].
Proof. vm_compute. repeat split. Qed.

Example main_stops_at_first_failure :
  fst (main (world_of (mkHost [] noon O false false false true [])))
  = Raise "OSError"
  /\ List.length
       (rendering_calls
          (calls (snd (main (world_of (mkHost [] noon O false false false true []))))))
     = 1%nat.
Proof. vm_compute. repeat split. Qed.

Lemma sanitize_filename_clean_witness :
  In "/"%char invalid_chars /\ contains "/" (_sanitize_filename "a/b\c") = false.
Proof.
  assert (Hin : In "/"%char invalid_chars) by (right; left; reflexivity).
  split; [exact Hin | exact (sanitize_filename_clean "a/b\c" "/" Hin)].
Defined.

Lemma barcode_filename_collision_witness :
  barcode_filename {| output_dir := "out" |} "A/B" "20231015123045"
  = barcode_filename {| output_dir := "out" |} "A:B" "20231015123045".
Proof.
  apply (barcode_filename_collision {| output_dir := "out" |} "A" "B" "/" ":"
           "20231015123045").
  - right; left; reflexivity.
  - do 4 right; left; reflexivity.
Defined.


Lemma sanitize_filename_serial_witness :
  _sanitize_filename "SN01234567" = "SN01234567".
Proof.
  apply (sanitize_filename_serial "SN" 8 "SN01234567").
  - exists "01234567". repeat split.
  - reflexivity.
Defined.

Lemma barcode_data_inj_tail_witness : 5 = 5 /\ "x|y" = "x|y".
Proof.
  apply (barcode_data_inj_tail "a|b" 5 5 "x|y" "x|y"). reflexivity.
Defined.

Lemma barcode_data_inj_witness : "a" = "a" /\ 5 = 5 /\ "x|y" = "x|y".
Proof.
  apply (barcode_data_inj "a" "a" 5 5 "x|y" "x|y"); reflexivity.
Defined.

Lemma init_creates_missing_directory_witness :
  __init__ "here" (world_of (with_existing host0 ["here"]))
  = (Ok {| output_dir := "here" |},
     {| ext := with_existing host0 ["here"];
        calls := [os_path_exists_call "here"] |})
  /\ output_dir {| output_dir := "new_dir" |} = "new_dir".
Proof.
  split.
  - apply (proj1 (proj2 (init_creates_missing_directory "here"
                           (world_of (with_existing host0 ["here"]))))).
    reflexivity.
  - apply (proj2 (proj2 (init_creates_missing_directory "new_dir" (world_of host0)))).
    reflexivity.
Defined.

Lemma generate_barcode_returns_saved_path_witness :
  fst (generate_barcode {| output_dir := "out" |} "SN1" 5 "PN1" (world_of host0))
  = Ok "out/barcode_SN1_20231015123045.jpeg".
Proof.
  rewrite (generate_barcode_returns_saved_path {| output_dir := "out" |} "SN1" 5
             "PN1" (world_of host0) "SN:SN1|SC:5|PN:PN1"
             "out/barcode_SN1_20231015123045.jpeg"
             (with_stdout host0 ["barcode_data: SN:SN1|SC:5|PN:PN1"])
             (with_stdout host0 ["barcode_data: SN:SN1|SC:5|PN:PN1"])
             eq_refl eq_refl).
  reflexivity.
Defined.


Lemma random_serial_is_encoded_witness :
  serial_of "SN" (Z.to_nat 8) "SN01234567"
  /\ rendering_calls
       (calls_since (world_of host0)
          (snd (generate_barcode_with_random_serial {| output_dir := "out" |}
                  "PN-TEST" 2000 "SN" 8 (world_of host0))))
     = [("code128", barcode_data "SN01234567" 2000 "PN-TEST", {| format := "JPEG" |})]
  /\ exists timestamp : string,
       saved_filenames
         (calls_since (world_of host0)
            (snd (generate_barcode_with_random_serial {| output_dir := "out" |}
                    "PN-TEST" 2000 "SN" 8 (world_of host0))))
       = ["out" +:+ "/barcode_" +:+ _sanitize_filename "SN01234567"
          +:+ "_" +:+ timestamp].
Proof.
  apply (random_serial_is_encoded {| output_dir := "out" |} "PN-TEST" 2000 "SN" 8
           (world_of host0) _ "out/barcode_SN01234567_20231015123045.jpeg").
  reflexivity.
Defined.

Lemma generate_batch_serials_nonpositive_witness :
  -2 <= 0
  /\ generate_batch_serials 1 (-2) "SN" 8 (world_of host0)
     = Some (Ok [], world_of host0).
Proof.
  split; [lia |].
  apply (generate_batch_serials_nonpositive 0 (-2) "SN" 8 (world_of host0)). lia.
Defined.



Lemma main_requests_witness :
  exists first second : list string,
    rendering_calls (calls_since (world_of host0) (snd (main (world_of host0))))
    = map (request 3000 "PN-DEF-456") first
      ++ map (request 700 "PN-ABC-123") second
    /\ Forall (serial_of "SN" 8) (first ++ second)
    /\ (List.length first <= 9)%nat
    /\ (List.length second <= 9)%nat
    /\ (second <> [] -> List.length first = 9%nat)
    /\ (fst (main (world_of host0)) = Ok tt ->
        List.length first = 9%nat /\ List.length second = 9%nat).
Proof. exact (main_requests (world_of host0)). Defined.

End MoreOnTestHost.
